(** * insights-core: the flow-table parser and the cloud-provider combiner

    A shallow embedding of

    - [insights/parsers/ovs_ofctl_dump_flows.py] (class [OVSofctlDumpFlows]),
      translated from the source, and
    - the cloud-provider combiner [insights.combiners.cloud_provider], of which
      only the tests ([insights/combiners/tests/test_cloud_provider.py]) are
      among the sources; it is modelled from the specification.

    Layout: Python string primitives, the parser, the combiner (definitions),
    then the facts about each. *)

From Stdlib Require Import ZArith QArith Ascii.
From stdpp Require Import base option list strings gmap.

Local Open Scope Z_scope.

(* ===================================================================== *)
(** * Python string primitives *)
(* ===================================================================== *)

Module Py.

(** The one-character string holding a double quote. *)
Definition dquote : string := String "034"%char "".

(** [sub in s]: substring test. *)
Fixpoint contains (sub s : string) : bool :=
  String.prefix sub s ||
  match s with
  | EmptyString => false
  | String _ s' => contains sub s'
  end.

(** [s.split(sep)] for a non-empty [sep]: the occurrences of [sep] are
    found left to right and do not overlap.  [skip] counts the characters
    of a separator just matched that are still to be passed over, [cur]
    holds the current part, reversed. *)
Fixpoint split_go (sep : string) (skip : nat) (cur s : string) : list string :=
  match s with
  | EmptyString => [String.rev cur]
  | String c s' =>
      match skip with
      | S k => split_go sep k cur s'
      | O =>
          if String.prefix sep s
          then String.rev cur :: split_go sep (String.length sep - 1) "" s'
          else split_go sep 0 (String c cur) s'
      end
  end.

Definition split (sep s : string) : list string := split_go sep 0 "" s.

(** [sep.join(parts)] *)
Fixpoint join (sep : string) (parts : list string) : string :=
  match parts with
  | [] => ""
  | [p] => p
  | p :: rest => p +:+ sep +:+ join sep rest
  end.

(** [s.replace(old, new)] for a non-empty [old]. *)
Definition replace (old new s : string) : string := join new (split old s).

(** The characters of [s] other than [c], in order. *)
Fixpoint remove_char (c : ascii) (s : string) : string :=
  match s with
  | EmptyString => ""
  | String a s' =>
      if Ascii.eqb a c then remove_char c s' else String a (remove_char c s')
  end.

(** [s.lstrip()], [s.rstrip()], [s.strip()] on ASCII white space. *)
Fixpoint lstrip (s : string) : string :=
  match s with
  | String a s' => if Ascii.is_space a then lstrip s' else s
  | EmptyString => ""
  end.

Definition rstrip (s : string) : string := String.rev (lstrip (String.rev s)).

Definition strip (s : string) : string := rstrip (lstrip s).

(** [s[n:]] *)
Fixpoint drop_chars (n : nat) (s : string) : string :=
  match n, s with
  | S k, String _ s' => drop_chars k s'
  | _, _ => s
  end.

(** [s[:n]] *)
Fixpoint take_chars (n : nat) (s : string) : string :=
  match n, s with
  | S k, String c s' => String c (take_chars k s')
  | _, _ => ""
  end.

(** [s.split(sep, 1)]: split at the first occurrence only. *)
Fixpoint split1_go (sep cur s : string) : list string :=
  match s with
  | EmptyString => [String.rev cur]
  | String c s' =>
      if String.prefix sep s
      then [String.rev cur; drop_chars (String.length sep) s]
      else split1_go sep (String c cur) s'
  end.

Definition split1 (sep s : string) : list string := split1_go sep "" s.

End Py.

(* ===================================================================== *)
(** * The flow-table parser, [insights/parsers/ovs_ofctl_dump_flows.py] *)
(* ===================================================================== *)

(** Exceptions the parser can leave with. *)
Inductive exn : Type :=
| SkipException (msg : string)
| ValueError.

Inductive result (A : Type) : Type :=
| Return (a : A)
| Raise (e : exn).
Arguments Return {A} a.
Arguments Raise {A} e.

#[global] Instance result_ret : MRet result := @Return.
#[global] Instance result_bind : MBind result :=
  λ A B f r, match r with Return a => f a | Raise e => Raise e end.

(** What the parser uses and the sources do not define: Python's [int] and
    [float] on strings ([None] stands for their [ValueError]), over a type
    [pyfloat] of floats, and the helper
    [insights.parsers.split_kv_pairs(lines, split_on=...)], which returns a
    dictionary. *)
Class Builtins (pyfloat : Type) : Type := {
  int : string → option Z;
  float : string → option pyfloat;
  split_kv_pairs : list string → string → gmap string string;
}.

Section Parser.
Context {pyfloat : Type} `{rt : Builtins pyfloat}.

(** A decoded field value: [str], [int] or [float]. *)
Inductive value : Type :=
| VStr (s : string)
| VInt (n : Z)
| VFloat (x : pyfloat).

Definition to_int (x : string) : result value :=
  match int x with Some n => Return (VInt n) | None => Raise ValueError end.

Definition to_float (x : string) : result value :=
  match float x with Some f => Return (VFloat f) | None => Raise ValueError end.

(** [_decode_port]: ports are numbers or quoted names. *)
Definition _decode_port (port : string) : result value :=
  match int port with
  | Some n => Return (VInt n)
  | None => Return (VStr (Py.replace Py.dquote "" port))
  end.

(** [self._field_decoders], set up in [__init__]; the keys are distinct. *)
Definition _field_decoders : gmap string (string → result value) :=
  list_to_map [
    ("duration", λ x, to_float (Py.replace "s" "" x));
    ("table", to_int);
    ("idle_age", to_int);
    ("importance", to_int);
    ("hard_age", to_int);
    ("priority", to_int);
    ("in_port", _decode_port);
    ("n_bytes", to_int);
    ("n_packets", to_int)
  ].

Definition _decode_field (elem : string * string) : result (string * value) :=
  match _field_decoders !! elem.1 with
  | None => Return (elem.1, VStr elem.2)
  | Some decoder => v ← decoder elem.2; Return (elem.1, v)
  end.

Definition _is_header (line : string) : bool := Py.contains "NXST_FLOW" line.

(** One flow: a dictionary from field name to decoded value. *)
Definition decode_items (flow_list : gmap string string)
  : result (gmap string value) :=
  items ← mapM _decode_field (map_to_list flow_list);
  Return (list_to_map items).

(** The body of the [for line in content] loop, after the header test;
    [bridges] is [self._bridges]. *)
Definition parse_line (line : string) (bridges : list (gmap string value))
  : result (list (gmap string value)) :=
  match Py.split "actions=" line with
  | [fields; actions] =>
      let flow_list := split_kv_pairs (Py.split "," fields) "=" in
      if decide (flow_list = ∅) then Return bridges
      else
        flow ← decode_items flow_list;
        Return (bridges ++ [<["actions" := VStr actions]> flow])
  | _ => Raise (SkipException "Invalid Content!")
  end.

Fixpoint parse_lines (content : list string) (bridges : list (gmap string value))
  : result (list (gmap string value)) :=
  match content with
  | [] => Return bridges
  | line :: rest =>
      if _is_header line then parse_lines rest bridges
      else bridges' ← parse_line line bridges; parse_lines rest bridges'
  end.

(** [self.file_path.split("ovs-ofctl_dump-flows_")[1]]; an absent path or
    a missing index ends in the bare [except]. *)
Definition extract_bridge_name (file_path : option string) : option string :=
  path ← file_path; Py.split "ovs-ofctl_dump-flows_" path !! 1%nat.

(** The parser object after [parse_content]. *)
Record OVSofctlDumpFlows : Type := {
  bridge_name : string;
  flow_dumps : list (gmap string value);
}.

Definition parse_content (file_path : option string) (content : list string)
  : result OVSofctlDumpFlows :=
  match content with
  | [] => Raise (SkipException "Empty Content!")
  | _ =>
      match extract_bridge_name file_path with
      | None => Raise (SkipException "Invalid Path!")
      | Some name =>
          bridges ← parse_lines content [];
          match bridges with
          | [] => Raise (SkipException "Invalid Content!")
          | _ => Return {| bridge_name := name; flow_dumps := bridges |}
          end
      end
  end.

(** A line that is not a header and does not split into exactly two parts
    on [actions=]. *)
Definition bad_split (line : string) : bool :=
  negb (_is_header line) &&
  negb (Nat.eqb (length (Py.split "actions=" line)) 2).

(** A line the loop turns into a flow record, if its fields decode. *)
Definition yields_flow (line : string) : bool :=
  negb (_is_header line) &&
  match Py.split "actions=" line with
  | [fields; _] => bool_decide (split_kv_pairs (Py.split "," fields) "=" ≠ ∅)
  | _ => false
  end.

End Parser.

(** ** Reading the loop of [parse_content] line by line *)

Section ParserLines.
Context {pyfloat : Type} `{rt : Builtins pyfloat}.

(** The text the bridge name is cut from. *)
Definition PATH_MARKER : string := "ovs-ofctl_dump-flows_".

(** A line the loop passes over without a record and without an error: a
    header ([continue]), or a line in two parts whose [flow_list] is empty
    (the [if flow_list:] test fails). *)
Definition skipped (line : string) : bool :=
  _is_header line ||
  match Py.split "actions=" line with
  | [fields; _] => bool_decide (split_kv_pairs (Py.split "," fields) "=" = ∅)
  | _ => false
  end.

(** [flow] is the record of [line]: the [actions] key holds the text after
    the delimiter, and every other key is a key of [split_kv_pairs] on the
    fields, with the value [_decode_field] gives it. *)
Definition flow_of_line (line : string) (flow : gmap string value) : Prop :=
  _is_header line = false ∧
  ∃ fields actions,
    Py.split "actions=" line = [fields; actions] ∧
    flow !! "actions" = Some (VStr actions) ∧
    ∀ k, k ≠ "actions" →
      match split_kv_pairs (Py.split "," fields) "=" !! k with
      | None => flow !! k = None
      | Some x => ∃ v, _decode_field (k, x) = Return (k, v) ∧ flow !! k = Some v
      end.

(** A field of [line] whose coercion raises: a [duration] that is no float
    once its [s] are removed, or a counter that is no int. *)
Definition bad_number (line : string) : Prop :=
  _is_header line = false ∧
  ∃ fields actions k x,
    Py.split "actions=" line = [fields; actions] ∧
    split_kv_pairs (Py.split "," fields) "=" !! k = Some x ∧
    ((k = "duration" ∧ float (Py.remove_char "s" x) = None) ∨
     (k ∈ ["table"; "idle_age"; "importance"; "hard_age"; "priority";
           "n_bytes"; "n_packets"] ∧ int x = None)).

End ParserLines.

(** Reference instances of the builtins, for evaluating the parser on
    concrete lines.  [Ref.int] and [Ref.float] read plain ASCII decimal
    literals, on which they agree with Python. *)
Module Ref.

Fixpoint digits_value (acc : Z) (s : string) : option Z :=
  match s with
  | EmptyString => Some acc
  | String c s' => d ← Ascii.is_nat c; digits_value (10 * acc + Z.of_nat d) s'
  end.

Definition natural (s : string) : option Z :=
  match s with
  | EmptyString => None
  | _ => digits_value 0 s
  end.

Definition int (s : string) : option Z :=
  match s with
  | String "-" s' => Z.opp <$> natural s'
  | String "+" s' => natural s'
  | _ => natural s
  end.

Definition float (s : string) : option Q :=
  match Py.split "." s with
  | [i] => inject_Z <$> natural i
  | [i; f] =>
      n ← natural (i +:+ f);
      Some (Qmake n (Z.to_pos (10 ^ Z.of_nat (String.length f))))
  | _ => None
  end.

(** Modelled from the spec: [insights.parsers.get_active_lines] and
    [insights.parsers.split_kv_pairs] are not among the sources, and the
    specification does not describe them; the parser above meets them only
    through [Builtins].  The instance below is the helper as the parser
    calls it (comment character [#], no filter, [split] rather than
    [partition]): comments and blank items are dropped, every other item
    holding [split_on] is cut at its first occurrence, and both halves are
    stripped. *)
Definition get_active_lines (lines : list string) (comment_char : string)
  : list string :=
  filter (λ l, l ≠ "")
    ((λ line, Py.strip (default "" (head (Py.split1 comment_char line)))) <$> lines).

Definition split_kv_pairs (lines : list string) (split_on : string)
  : gmap string string :=
  foldl (λ kv_pairs line,
           if Py.contains split_on line then
             match Py.split1 split_on line with
             | [k; v] => <[Py.strip k := Py.strip v]> kv_pairs
             | _ => kv_pairs
             end
           else kv_pairs)
        ∅ (get_active_lines lines "#").

Definition builtins : Builtins Q := Build_Builtins Q int float split_kv_pairs.

End Ref.

(* ===================================================================== *)
(** * The cloud-provider combiner *)
(* ===================================================================== *)

(** Modelled from the spec: the module [insights.combiners.cloud_provider]
    (class [CloudProvider]) is missing from the sources; only its tests are
    there.  What follows is the combiner of the specification, sections 3 and
    4: providers, source categories, hits, the three matchers, the evidence
    index and the precedence policy. *)

(** ** Data model (section 3) *)

Inductive Provider : Type := aws | google | azure.

(** The fixed enumeration order of the providers. *)
Definition PROVIDERS : list Provider := [aws; google; azure].

Inductive SourceCategory : Type :=
| package
| bios_vendor
| bios_version
| uuid
| asset_tag
| repo.

Definition CATEGORIES : list SourceCategory :=
  [package; bios_vendor; bios_version; uuid; asset_tag; repo].

#[global] Instance Provider_eq_dec : EqDecision Provider.
Proof. solve_decision. Defined.

#[global] Instance SourceCategory_eq_dec : EqDecision SourceCategory.
Proof. solve_decision. Defined.

#[global] Instance Provider_countable : Countable Provider :=
  inj_countable'
    (λ p, match p with aws => 0 | google => 1 | azure => 2 end%nat)
    (λ n, match n with 0 => aws | 1 => google | _ => azure end%nat)
    (λ p, match p with aws | google | azure => eq_refl end).

#[global] Instance SourceCategory_countable : Countable SourceCategory :=
  inj_countable'
    (λ c, match c with
          | package => 0 | bios_vendor => 1 | bios_version => 2
          | uuid => 3 | asset_tag => 4 | repo => 5
          end%nat)
    (λ n, match n with
          | 0 => package | 1 => bios_vendor | 2 => bios_version
          | 3 => uuid | 4 => asset_tag | _ => repo
          end%nat)
    (λ c, match c with
          | package | bios_vendor | bios_version | uuid | asset_tag | repo => eq_refl
          end).

Record Hit : Type := {
  provider : Provider;
  source_category : SourceCategory;
  matched_value : string;
}.

#[global] Instance Hit_eq_dec : EqDecision Hit.
Proof. solve_decision. Defined.

(** SourceCategory -> (Provider -> ordered sequence of matched raw values). *)
Abbreviation EvidenceIndex := (gmap SourceCategory (gmap Provider (list string))).

Record Verdict : Type := {
  cloud_provider : option Provider;
  evidence : EvidenceIndex;
}.

(** ** Signatures (sections 4.1 and 9): literal substring, prefix or equality
    tests, kept in one table per provider and category. *)

Inductive MatchKind : Type := Contains | StartsWith | Equals.

Record Rule : Type := {
  rule_provider : Provider;
  rule_category : SourceCategory;
  rule_kind : MatchKind;
  rule_pattern : string;
}.

(** The signatures the specification and the test fixtures name. *)
Definition known_signatures : list Rule := [
  {| rule_provider := aws; rule_category := package;
     rule_kind := Contains; rule_pattern := "rh-amazon-rhui-client" |};
  {| rule_provider := google; rule_category := package;
     rule_kind := Contains; rule_pattern := "google-rhui-client" |};
  {| rule_provider := azure; rule_category := package;
     rule_kind := Contains; rule_pattern := "WALinuxAgent" |};
  {| rule_provider := google; rule_category := bios_vendor;
     rule_kind := Equals; rule_pattern := "Google" |};
  {| rule_provider := aws; rule_category := bios_version;
     rule_kind := Contains; rule_pattern := "amazon" |};
  {| rule_provider := aws; rule_category := uuid;
     rule_kind := StartsWith; rule_pattern := "EC2" |};
  {| rule_provider := azure; rule_category := asset_tag;
     rule_kind := Equals; rule_pattern := "7783-7084-3265-9085-8269-3286-77" |};
  {| rule_provider := azure; rule_category := repo;
     rule_kind := Contains; rule_pattern := "rhui-microsoft-azure" |}
].

(** A hit's matched value is never empty. *)
Definition rule_matches (r : Rule) (v : string) : bool :=
  negb (String.eqb v "") &&
  match rule_kind r with
  | Contains => Py.contains (rule_pattern r) v
  | StartsWith => String.prefix (rule_pattern r) v
  | Equals => String.eqb (rule_pattern r) v
  end.

(** ** Collaborator outputs (section 6) *)

Inductive HandleKind : Type :=
| BIOSInformation
| SystemInformation
| ChassisInformation
| OtherHandle (name : string).

#[global] Instance HandleKind_eq_dec : EqDecision HandleKind.
Proof. solve_decision. Defined.

Record Handle : Type := {
  kind : HandleKind;
  fields : gmap string string;
}.

(** The three collaborators as one run sees them, and the order a run may
    consult them in. *)
Inductive Source : Type := Packages | Dmi | Repos.

#[global] Instance Source_eq_dec : EqDecision Source.
Proof. solve_decision. Defined.

Definition SOURCES : list Source := [Packages; Dmi; Repos].

Definition source_of (c : SourceCategory) : Source :=
  match c with
  | package => Packages
  | bios_vendor | bios_version | uuid | asset_tag => Dmi
  | repo => Repos
  end.

Section Combiner.
Variable signatures : list Rule.

(** ** Signal matchers (section 4.1) *)

(** For each provider in enumeration order, each of its rules for the
    category, each observed value the rule matches: one hit. *)
Definition match_values (c : SourceCategory) (values : list string) : list Hit :=
  p ← PROVIDERS;
  r ← filter (λ r, rule_provider r = p ∧ rule_category r = c) signatures;
  v ← filter (λ v, rule_matches r v) values;
  [{| provider := p; source_category := c; matched_value := v |}].

Definition package_matcher (rpms : option (list string)) : list Hit :=
  match rpms with
  | None => []
  | Some names => match_values package names
  end.

(** Only the first record of a kind is looked at. *)
Definition first_handle (k : HandleKind) (dmi : list Handle) : option Handle :=
  head (filter (λ h, kind h = k) dmi).

Definition dmi_field (dmi : list Handle) (k : HandleKind) (name : string)
  : option string :=
  h ← first_handle k dmi; fields h !! name.

Definition dmi_matcher (dmidcd : option (list Handle)) : list Hit :=
  match dmidcd with
  | None => []
  | Some dmi =>
      match_values bios_vendor (option_list (dmi_field dmi BIOSInformation "vendor"))
      ++ match_values bios_version (option_list (dmi_field dmi BIOSInformation "version"))
      ++ match_values uuid (option_list (dmi_field dmi SystemInformation "uuid"))
      ++ match_values asset_tag (option_list (dmi_field dmi ChassisInformation "asset_tag"))
  end.

Definition repo_matcher (yrl : option (list string)) : list Hit :=
  match yrl with
  | None => []
  | Some repos => match_values repo repos
  end.

Definition run_matcher (rpms : option (list string))
    (dmidcd : option (list Handle)) (yrl : option (list string)) (s : Source)
  : list Hit :=
  match s with
  | Packages => package_matcher rpms
  | Dmi => dmi_matcher dmidcd
  | Repos => repo_matcher yrl
  end.

(** Step 1 of the classifier: the union of all hits, the matchers run in
    the given order. *)
Definition collect_hits (rpms : option (list string))
    (dmidcd : option (list Handle)) (yrl : option (list string))
    (order : list Source) : list Hit :=
  s ← order; run_matcher rpms dmidcd yrl s.

End Combiner.

(** ** Evidence index (sections 3 and 4.3) *)

(** All categories present, each with an empty mapping. *)
Definition empty_index : EvidenceIndex :=
  list_to_map ((λ c, (c, ∅)) <$> CATEGORIES).

(** Append-only construction. *)
Definition add_hit (idx : EvidenceIndex) (h : Hit) : EvidenceIndex :=
  alter (λ by_provider : gmap Provider (list string),
           <[provider h := default [] (by_provider !! provider h) ++ [matched_value h]]>
             by_provider)
        (source_category h) idx.

Definition build_index (hits : list Hit) : EvidenceIndex :=
  foldl add_hit empty_index hits.

(** The facade's query: the matched values of a category and provider. *)
Definition evidence_for (v : Verdict) (c : SourceCategory) (p : Provider)
  : list string :=
  default [] (by_provider ← evidence v !! c; by_provider !! p).

(** ** Classifier (section 4.2) *)

(** The four precedence levels, a larger number outranking a smaller one:
    BIOS/DMI vendor, version and UUID; asset tag; repository; package name. *)
Definition tier (c : SourceCategory) : nat :=
  match c with
  | bios_vendor | bios_version | uuid => 3
  | asset_tag => 2
  | repo => 1
  | package => 0
  end.

(** The order the categories are consulted in.  Within the BIOS/DMI level the
    specification leaves the choice open; here vendor comes before version
    before UUID, and within one category the providers are taken in their
    enumeration order. *)
Definition PRECEDENCE : list SourceCategory :=
  [bios_vendor; bios_version; uuid; asset_tag; repo; package].

Definition has_hit (hits : list Hit) (c : SourceCategory) (p : Provider) : bool :=
  existsb (λ h, bool_decide (source_category h = c ∧ provider h = p)) hits.

(** Step 1: the providers with at least one hit in any category. *)
Definition in_play (hits : list Hit) : list Provider :=
  filter (λ p, existsb (λ h, bool_decide (provider h = p)) hits) PROVIDERS.

(** Step 4: the first category in precedence order with any hit decides. *)
Definition resolve (hits : list Hit) : option Provider :=
  head (c ← PRECEDENCE; filter (λ p, has_hit hits c p) PROVIDERS).

Definition select_provider (hits : list Hit) : option Provider :=
  match in_play hits with
  | [] => None
  | [p] => Some p
  | _ => resolve hits
  end.

Definition classify (hits : list Hit) : Verdict :=
  {| cloud_provider := select_provider hits; evidence := build_index hits |}.

(** One classification run, the matchers consulted in the given order. *)
Definition classify_in_order (signatures : list Rule)
    (rpms : option (list string)) (dmidcd : option (list Handle))
    (yrl : option (list string)) (order : list Source) : Verdict :=
  classify (collect_hits signatures rpms dmidcd yrl order).

(** [CloudProvider(rpms, dmidcd, yrl)] *)
Definition CloudProvider (signatures : list Rule)
    (rpms : option (list string)) (dmidcd : option (list Handle))
    (yrl : option (list string)) : Verdict :=
  classify_in_order signatures rpms dmidcd yrl SOURCES.

(** The hits of a run. *)
Definition all_hits (signatures : list Rule)
    (rpms : option (list string)) (dmidcd : option (list Handle))
    (yrl : option (list string)) : list Hit :=
  collect_hits signatures rpms dmidcd yrl SOURCES.

(** The matched values of the hits of one category and provider, in the
    order of the hits. *)
Definition hit_values (hits : list Hit) (c : SourceCategory) (p : Provider)
  : list string :=
  matched_value <$> filter (λ h, source_category h = c ∧ provider h = p) hits.

(** Whether a collaborator is passed as [None]. *)
Definition withhold {A : Type} (absent : bool) (x : option A) : option A :=
  if absent then None else x.

(* ===================================================================== *)
(** * Fixtures *)
(* ===================================================================== *)

Module Fixtures.

(** Two flow lines as in the parser's docstring, and a path of the dump. *)
Definition flow_line_1 : string :=
  "cookie=0x0, duration=8.528s, table=0, n_packets=0, n_bytes=0, idle_timeout=60, priority=65535,arp,in_port="
  +:+ Py.dquote +:+ "s1-eth2" +:+ Py.dquote
  +:+ ",vlan_tci=0x0000,dl_src=62:ee:31:2b:35:7c,arp_op=2 actions=output:"
  +:+ Py.dquote +:+ "s1-eth3" +:+ Py.dquote.

Definition flow_line_2 : string :=
  "cookie=0x0, duration=4.617s, table=0, n_packets=0, n_bytes=0, idle_timeout=60, priority=65535,arp,in_port=1,vlan_tci=0x0000,arp_op=2 actions=output:2".

Definition flow_dump : list string := [flow_line_1; flow_line_2].

(** The reply header [ovs-ofctl] prints first, and a line without fields. *)
Definition flow_header : string := "NXST_FLOW reply (xid=0x4):".

Definition flow_line_bare : string := " actions=drop".

Definition flow_dump_raw : list string :=
  [flow_header; flow_line_1; flow_line_bare; flow_line_2].

Definition flow_path : string := "sos_commands/openvswitch/ovs-ofctl_dump-flows_br0".

(** The package, DMI and repository data of [test_cloud_provider.py], cut
    down to the fields the matchers read. *)
Definition RPMS : list string :=
  ["gnome-terminal-3.28.2-2.fc28.x86_64"; "python3-IPy-0.81-21.fc28.noarch";
   "gnu-free-serif-fonts-20120503-17.fc28.noarch"].

Definition RPMS_AWS : list string := RPMS ++ ["rh-amazon-rhui-client-2.2.124-1.el7"].

Definition RPMS_GOOGLE : list string := RPMS ++ ["google-rhui-client-5.1.100-1.el7"].

Definition YUM_REPOLIST_NOT_AZURE : list string :=
  ["rhel-6-server-rpms"; "rhel-6-server-satellite-tools-6.3-rpms"].

Definition YUM_REPOLIST_AZURE : list string :=
  YUM_REPOLIST_NOT_AZURE ++ ["rhui-microsoft-azure-rhel7-2.2-74"].

Definition dmi_table (vendor version system_uuid chassis_asset_tag : string)
  : list Handle :=
  [ {| kind := BIOSInformation;
       fields := list_to_map [("vendor", vendor); ("version", version)] |};
    {| kind := SystemInformation;
       fields := list_to_map [("uuid", system_uuid)] |};
    {| kind := ChassisInformation;
       fields := list_to_map [("asset_tag", chassis_asset_tag)] |} ].

Definition DMIDECODE : list Handle :=
  dmi_table "HP" "P70" "34373936-3439-4D32-3233-333630303036" "".

Definition DMIDECODE_AWS : list Handle :=
  dmi_table "Xen" "4.2.amazon" "EC2F58AF-2DAD-C57E-88C0-A81CB6084290" "Not Specified".

Definition DMIDECODE_AZURE_ASSET_TAG : list Handle :=
  dmi_table "SeaBIOS" "1.11.0-2.el7" "a35ae32b-ed0a-49a4-9dbb-eecf21f88aab"
            "7783-7084-3265-9085-8269-3286-77".

(** An Amazon BIOS version together with the asset tag of the other
    provider. *)
Definition DMIDECODE_AWS_WITH_ASSET_TAG : list Handle :=
  dmi_table "Xen" "4.2.amazon" "a35ae32b-ed0a-49a4-9dbb-eecf21f88aab"
            "7783-7084-3265-9085-8269-3286-77".

(** A path without the marker; a line without the delimiter; a line whose
    counter is no number. *)
Definition flow_path_unmarked : string :=
  "sos_commands/openvswitch/ovs-ofctl_dump_flows".

Definition flow_line_cut : string := "cookie=0x0, duration=8.528s, table=0".

Definition flow_line_bad_table : string := "table=main actions=drop".

(** The parser object a run returned, for stating facts about that run. *)
Definition returned {pyfloat : Type} (r : result (@OVSofctlDumpFlows pyfloat))
  : @OVSofctlDumpFlows pyfloat :=
  match r with
  | Return ovs => ovs
  | Raise _ => {| bridge_name := ""; flow_dumps := [] |}
  end.

End Fixtures.

(* ===================================================================== *)
(** * Facts: Python string primitives *)
(* ===================================================================== *)

Module PyFacts.

Lemma app_cons (a : ascii) (s1 s2 : string) :
  String a s1 +:+ s2 = String a (s1 +:+ s2).
Proof. reflexivity. Qed.

Lemma app_empty_r (s : string) : s +:+ "" = s.
Proof. induction s as [|a s IH]; [done | by rewrite app_cons, IH]. Qed.

Lemma app_assoc (s1 s2 s3 : string) : (s1 +:+ s2) +:+ s3 = s1 +:+ s2 +:+ s3.
Proof. induction s1 as [|a s1 IH]; [done | by rewrite !app_cons, IH]. Qed.

Lemma rev_app_app (s1 s2 : string) :
  String.rev_app s1 s2 = String.rev_app s1 "" +:+ s2.
Proof.
  revert s2. induction s1 as [|a s1 IH]; intros s2; simpl; [done|].
  rewrite (IH (String a s2)), (IH (String a "")).
  by rewrite app_assoc.
Qed.

Lemma rev_cons (a : ascii) (s : string) :
  String.rev (String a s) = String.rev s +:+ String a "".
Proof. unfold String.rev. simpl. apply rev_app_app. Qed.

Lemma prefix_single (c a : ascii) (s : string) :
  String.prefix (String c "") (String a s) = Ascii.eqb a c.
Proof.
  simpl. destruct (ascii_dec c a) as [->|Hne].
  - rewrite Ascii.eqb_refl. by destruct s.
  - symmetry. apply Ascii.eqb_neq. congruence.
Qed.

Lemma split_go_nonempty sep skip cur s : Py.split_go sep skip cur s ≠ [].
Proof.
  revert skip cur. induction s as [|a s IH]; intros skip cur; [done|].
  cbn [Py.split_go]. destruct skip; [|apply IH].
  destruct (String.prefix sep (String a s)); [done | apply IH].
Qed.

Lemma join_empty_cons (p : string) (parts : list string) :
  Py.join "" (p :: parts) = p +:+ Py.join "" parts.
Proof. destruct parts; cbn [Py.join]; [by rewrite app_empty_r | done]. Qed.

Lemma join_empty_split_go (c : ascii) (cur s : string) :
  Py.join "" (Py.split_go (String c "") 0 cur s)
  = String.rev cur +:+ Py.remove_char c s.
Proof.
  revert cur. induction s as [|a s IH]; intros cur.
  - cbn [Py.split_go Py.remove_char Py.join]. by rewrite app_empty_r.
  - cbn [Py.split_go Py.remove_char]. rewrite prefix_single.
    destruct (Ascii.eqb a c).
    + rewrite join_empty_cons. cbn [String.length Nat.sub]. by rewrite IH.
    + rewrite IH, rev_cons, app_assoc. done.
Qed.

(** [s.replace(c, '')] for a one-character [c] removes every [c]. *)
Lemma replace_char_empty (c : ascii) (s : string) :
  Py.replace (String c "") "" s = Py.remove_char c s.
Proof. unfold Py.replace, Py.split. by rewrite join_empty_split_go. Qed.

End PyFacts.

(* ===================================================================== *)
(** * Facts: the flow-table parser *)
(* ===================================================================== *)

Section ParserFacts.
Context {pyfloat : Type} `{rt : Builtins pyfloat}.

Lemma field_decoders_lookup (name : string) :
  _field_decoders !! name =
    if decide (name = "duration") then Some (λ x, to_float (Py.replace "s" "" x))
    else if decide (name ∈ ["table"; "idle_age"; "importance"; "hard_age";
                            "priority"; "n_bytes"; "n_packets"]) then Some to_int
    else if decide (name = "in_port") then Some _decode_port
    else None.
Proof.
  destruct (decide (name = "duration")) as [->|Hd]; [reflexivity|].
  destruct (decide (name ∈ _)) as [Hi|Hi].
  { revert Hi. rewrite !elem_of_cons, elem_of_nil.
    intros [->|[->|[->|[->|[->|[->|[->|[]]]]]]]]; reflexivity. }
  destruct (decide (name = "in_port")) as [->|Hp]; [reflexivity|].
  rewrite !not_elem_of_cons in Hi.
  destruct Hi as (? & ? & ? & ? & ? & ? & ? & _).
  unfold _field_decoders. cbn [list_to_map foldr uncurry fst snd].
  rewrite !lookup_insert_ne by done. apply lookup_empty.
Qed.

(** C10. [_decode_port] never raises: it returns the integer when
    [int(port)] succeeds, and otherwise the string [port] with every
    double-quote character removed. *)
Theorem decode_port_total (port : string) :
  _decode_port port =
    Return (match int port with
            | Some n => VInt n
            | None => VStr (Py.remove_char "034" port)
            end).
Proof.
  unfold _decode_port, Py.dquote.
  destruct (int port); [done|].
  by rewrite PyFacts.replace_char_empty.
Qed.

(** C9. [_decode_field] coerces by field name through the fixed
    dictionary: [duration] to a float after every [s] is removed, the seven
    counters to an int, [in_port] through [_decode_port]; any other name
    keeps its string value. *)
Theorem decode_field_by_name (name x : string) :
  _decode_field (name, x) =
    if decide (name = "duration") then
      match float (Py.remove_char "s" x) with
      | Some f => Return (name, VFloat f)
      | None => Raise ValueError
      end
    else if decide (name ∈ ["table"; "idle_age"; "importance"; "hard_age";
                            "priority"; "n_bytes"; "n_packets"]) then
      match int x with
      | Some n => Return (name, VInt n)
      | None => Raise ValueError
      end
    else if decide (name = "in_port") then
      v ← _decode_port x; Return (name, v)
    else Return (name, VStr x).
Proof.
  unfold _decode_field. cbn [fst snd]. rewrite field_decoders_lookup.
  destruct (decide (name = "duration")) as [->|Hd].
  { rewrite PyFacts.replace_char_empty. unfold to_float.
    by destruct (float _). }
  destruct (decide (name ∈ _)) as [Hi|Hi].
  { unfold to_int. by destruct (int x). }
  by destruct (decide (name = "in_port")).
Qed.

(** The only exception a field decoder raises is [ValueError]. *)
Lemma decode_field_raises (elem : string * string) (e : exn) :
  _decode_field elem = Raise e → e = ValueError.
Proof.
  unfold _decode_field. rewrite field_decoders_lookup.
  repeat case_decide; unfold to_float, to_int, _decode_port;
    repeat case_match; cbn; congruence.
Qed.

Lemma mapM_raises {A B} (f : A → result B) (l : list A) (e : exn) :
  (∀ x e', f x = Raise e' → e' = ValueError) →
  mapM f l = Raise e → e = ValueError.
Proof.
  intros Hf. induction l as [|x l IH]; cbn; [done|].
  destruct (f x) eqn:Hx; cbn.
  - destruct (mapM f l); cbn; [done|]. intros [= <-]. by apply IH.
  - intros [= <-]. by apply (Hf x).
Qed.

Lemma decode_items_raises (flow_list : gmap string string) (e : exn) :
  decode_items flow_list = Raise e → e = ValueError.
Proof.
  unfold decode_items.
  destruct (mapM _decode_field (map_to_list flow_list)) eqn:Hm; cbn; [done|].
  intros [= <-]. eapply mapM_raises; [|done]. apply decode_field_raises.
Qed.

(** What one pass of the loop body does with a line that is no header. *)
Lemma parse_line_outcome (line : string) (bridges : list (gmap string value)) :
  _is_header line = false →
  match parse_line line bridges with
  | Return r =>
      ¬ bad_split line ∧
      ((¬ yields_flow line ∧ r = bridges) ∨
       (yields_flow line ∧ ∃ flow, r = bridges ++ [flow]))
  | Raise (SkipException _) => bad_split line
  | Raise ValueError => ¬ bad_split line ∧ yields_flow line
  end.
Proof.
  intros Hh. unfold parse_line, bad_split, yields_flow. rewrite Hh.
  destruct (Py.split "actions=" line) as [|fields [|actions [|? ?]]]; cbn; try done.
  destruct (decide (split_kv_pairs (Py.split "," fields) "=" = ∅)) as [He|He].
  - rewrite bool_decide_eq_false_2 by (intros Hne; by apply Hne). naive_solver.
  - rewrite bool_decide_eq_true_2 by done.
    destruct (decode_items _) as [flow|e] eqn:Hd; cbn.
    + naive_solver.
    + apply decode_items_raises in Hd as ->. naive_solver.
Qed.

(** The loop: a normal end means no line split badly and one record per
    flow-yielding line; [SkipException] means a line split badly. *)
Lemma parse_lines_outcome (content : list string) (bridges : list (gmap string value)) :
  match parse_lines content bridges with
  | Return r =>
      Forall (λ line, ¬ bad_split line) content ∧
      ∃ new, r = bridges ++ new ∧
             length new = length (filter (λ line, yields_flow line) content)
  | Raise (SkipException _) => Exists (λ line, bad_split line) content
  | Raise ValueError => True
  end.
Proof.
  revert bridges. induction content as [|line rest IH]; intros bridges;
    cbn [parse_lines].
  { split; [constructor|]. exists []. by rewrite app_nil_r. }
  destruct (_is_header line) eqn:Hh.
  { assert (¬ bad_split line) as Hb by (unfold bad_split; rewrite Hh; cbn; auto).
    assert (¬ yields_flow line) as Hy by (unfold yields_flow; rewrite Hh; cbn; auto).
    specialize (IH bridges). rewrite filter_cons_False by exact Hy.
    destruct (parse_lines rest bridges) as [r|[msg|]]; [|by right|done].
    destruct IH as [? ?]. by split; [constructor|]. }
  pose proof (parse_line_outcome line bridges Hh) as Hl.
  destruct (parse_line line bridges) as [r|[msg|]]; cbn [mbind result_bind];
    [|by left|done].
  destruct Hl as [Hb Hl]. specialize (IH r).
  destruct (parse_lines rest r) as [r'|[msg|]]; [|by right|done].
  destruct IH as [Hrest (new & -> & Hlen)]. split; [by constructor|].
  destruct Hl as [[Hy ->]|[Hy [flow ->]]].
  - rewrite filter_cons_False by exact Hy. eauto.
  - rewrite filter_cons_True by exact Hy. exists (flow :: new).
    by rewrite <- app_assoc; cbn; rewrite Hlen.
Qed.

(** C8, as the code has it.  Unless a field coercion raises [ValueError]
    (which then leaves [parse_content] instead), [parse_content] raises
    [SkipException] exactly when the content is empty, the file path is absent
    or lacks the [ovs-ofctl_dump-flows_] marker, some line that is no header
    does not split into exactly two parts on [actions=], or no line yields a
    flow record; otherwise it returns the bridge name and one flow per
    flow-yielding line. *)
Theorem parse_content_skip_iff (file_path : option string) (content : list string) :
  parse_content file_path content ≠ Raise ValueError →
  ((∃ msg, parse_content file_path content = Raise (SkipException msg)) ↔
     content = [] ∨ extract_bridge_name file_path = None ∨
     Exists (λ line, bad_split line) content ∨
     Forall (λ line, ¬ yields_flow line) content)
  ∧ ((∃ msg, parse_content file_path content = Raise (SkipException msg)) ∨
     ∃ name flows,
       extract_bridge_name file_path = Some name ∧
       parse_content file_path content
         = Return {| bridge_name := name; flow_dumps := flows |} ∧
       flows ≠ [] ∧
       length flows = length (filter (λ line, yields_flow line) content)).
Proof.
  unfold parse_content. destruct content as [|line rest].
  { intros _. split; [split|]; eauto. }
  set (content := line :: rest).
  destruct (extract_bridge_name file_path) as [name|].
  2:{ intros _. split; [split|]; eauto. }
  pose proof (parse_lines_outcome content []) as Hloop.
  destruct (parse_lines content []) as [[|flow flows]|[msg|]]; cbn.
  - intros _. destruct Hloop as [_ (new & Hnew & Hlen)]. cbn in Hnew. subst new.
    split; [split|]; eauto. intros _. do 3 right.
    symmetry in Hlen. apply length_zero_iff_nil in Hlen.
    apply Forall_forall. intros l Hl Hy.
    assert (l ∈ filter (λ line, yields_flow line) content) as Hin
      by by apply list_elem_of_filter.
    rewrite Hlen in Hin. by apply elem_of_nil in Hin.
  - intros _. destruct Hloop as [Hbad (new & Hnew & Hlen)]. cbn in Hnew. subst new.
    split.
    + split; [by intros [? ?]|]. intros [?|[?|[Hex|Hall]]]; try done.
      * exfalso. apply Exists_exists in Hex as (l & Hl & Hb).
        by eapply (proj1 (Forall_forall _ _) Hbad).
      * exfalso.
        destruct (filter (λ line, yields_flow line) content) as [|l ?] eqn:Hf;
          [done|].
        assert (l ∈ filter (λ line, yields_flow line) content) as Hin
          by (rewrite Hf; left).
        apply list_elem_of_filter in Hin as [Hy Hl].
        by eapply (proj1 (Forall_forall _ _) Hall).
    + right. exists name, (flow :: flows). eauto.
  - intros _. split; [split|]; eauto.
  - done.
Qed.

End ParserFacts.

(** ** The parser on concrete dumps, under the reference builtins *)

Section ParserExamples.
#[local] Existing Instance Ref.builtins.

(** The decoder on the docstring's sample. *)
Example parse_content_sample :
  match parse_content (Some Fixtures.flow_path) Fixtures.flow_dump with
  | Return ovs =>
      bridge_name ovs = "br0" ∧
      (λ f : gmap string value,
         (f !! "duration", f !! "table", f !! "in_port", f !! "cookie",
          f !! "arp", f !! "actions")) <$> flow_dumps ovs
      = [ (Some (VFloat (8528 # 1000)), Some (VInt 0), Some (VStr "s1-eth2"),
           Some (VStr "0x0"), None,
           Some (VStr ("output:" +:+ Py.dquote +:+ "s1-eth3" +:+ Py.dquote)));
          (Some (VFloat (4617 # 1000)), Some (VInt 0), Some (VInt 1),
           Some (VStr "0x0"), None, Some (VStr "output:2")) ]
  | Raise _ => False
  end.
Proof. vm_compute. split; reflexivity. Qed.

(** A counter that is no number leaves [parse_content] with [ValueError]. *)
Example parse_content_value_error :
  parse_content (Some Fixtures.flow_path) ["table=main actions=drop"]
  = Raise ValueError.
Proof. vm_compute. reflexivity. Qed.

(** C8, witness: the docstring's sample under its path. *)
Lemma parse_content_skip_iff_witness :
  parse_content (Some Fixtures.flow_path) Fixtures.flow_dump ≠ Raise ValueError
  ∧ (((∃ msg, parse_content (Some Fixtures.flow_path) Fixtures.flow_dump
              = Raise (SkipException msg)) ↔
        Fixtures.flow_dump = [] ∨
        extract_bridge_name (Some Fixtures.flow_path) = None ∨
        Exists (λ line, bad_split line) Fixtures.flow_dump ∨
        Forall (λ line, ¬ yields_flow line) Fixtures.flow_dump)
     ∧ ((∃ msg, parse_content (Some Fixtures.flow_path) Fixtures.flow_dump
                = Raise (SkipException msg)) ∨
        ∃ name flows,
          extract_bridge_name (Some Fixtures.flow_path) = Some name ∧
          parse_content (Some Fixtures.flow_path) Fixtures.flow_dump
            = Return {| bridge_name := name; flow_dumps := flows |} ∧
          flows ≠ [] ∧
          length flows
            = length (filter (λ line, yields_flow line) Fixtures.flow_dump))).
Proof.
  assert (parse_content (Some Fixtures.flow_path) Fixtures.flow_dump
            ≠ Raise ValueError) as Hne
    by (vm_compute; discriminate).
  split; [exact Hne|].
  exact (parse_content_skip_iff (Some Fixtures.flow_path) Fixtures.flow_dump Hne).
Defined.

(** C8, counterexample to the claim as stated: a well-formed dump under a
    path without the marker raises [SkipException], though the content is not
    empty, every line splits in two and every line yields a flow. *)
Lemma parse_content_skips_on_invalid_path :
  parse_content (Some "sos_commands/openvswitch/ovs-ofctl_dump_flows")
    Fixtures.flow_dump
    = Raise (SkipException "Invalid Path!")
  ∧ Fixtures.flow_dump ≠ []
  ∧ Forall (λ line, ¬ bad_split line) Fixtures.flow_dump
  ∧ Forall (λ line, yields_flow line) Fixtures.flow_dump.
Proof.
  split; [vm_compute; reflexivity|]. split; [done|].
  assert (forallb (λ line, negb (bad_split line) && yields_flow line)
            Fixtures.flow_dump = true) as Hall
    by (vm_compute; reflexivity).
  apply Is_true_true, forallb_True in Hall.
  rewrite Forall_forall in Hall.
  split; apply Forall_forall; intros line Hin;
    specialize (Hall line Hin); apply andb_True in Hall as [Hb Hy];
    [by apply negb_True in Hb | done].
Qed.

End ParserExamples.

(* ===================================================================== *)
(** * Facts: [split] against the substring test *)
(* ===================================================================== *)

Module SplitFacts.

Lemma prefix_empty (s : string) : String.prefix "" s = true.
Proof. by destruct s. Qed.

Lemma prefix_nil_r (sep : string) : sep ≠ "" → String.prefix sep "" = false.
Proof. by destruct sep. Qed.

Lemma prefix_cons (c d : ascii) (s t : string) :
  String.prefix (String c s) (String d t) = bool_decide (c = d) && String.prefix s t.
Proof.
  cbn [String.prefix]. destruct (ascii_dec c d) as [->|Hne].
  - by rewrite bool_decide_eq_true_2.
  - by rewrite bool_decide_eq_false_2.
Qed.

Lemma prefix_app_self (s t : string) : String.prefix s (s +:+ t) = true.
Proof.
  induction s as [|c s IH]; [apply prefix_empty|].
  rewrite PyFacts.app_cons, prefix_cons, IH. by rewrite bool_decide_eq_true_2.
Qed.

(** A part with no separator in it is one part. *)
Lemma split_go_absent (sep cur s : string) :
  Py.contains sep s = false →
  Py.split_go sep 0 cur s = [String.rev cur +:+ s].
Proof.
  revert cur. induction s as [|c s IH]; intros cur Hc.
  - cbn [Py.split_go]. by rewrite PyFacts.app_empty_r.
  - cbn [Py.contains] in Hc. apply orb_false_iff in Hc as [Hp Hc].
    cbn [Py.split_go]. rewrite Hp, (IH _ Hc), PyFacts.rev_cons, PyFacts.app_assoc.
    done.
Qed.

(** A separator that occurs gives at least two parts. *)
Lemma split_go_present (sep cur s : string) :
  sep ≠ "" → Py.contains sep s = true →
  ∃ a b rest, Py.split_go sep 0 cur s = a :: b :: rest.
Proof.
  intros Hsep. revert cur. induction s as [|c s IH]; intros cur Hc.
  - cbn [Py.contains] in Hc. by rewrite prefix_nil_r in Hc.
  - cbn [Py.contains] in Hc. cbn [Py.split_go].
    destruct (String.prefix sep (String c s)) eqn:Hp.
    + pose proof (PyFacts.split_go_nonempty sep (String.length sep - 1) "" s) as Hne.
      destruct (Py.split_go sep (String.length sep - 1) "" s) as [|b rest]; [done|].
      eauto.
    + apply IH. by rewrite orb_false_l in Hc.
Qed.

Lemma split_second_None (sep s : string) :
  sep ≠ "" →
  Py.split sep s !! 1%nat = None ↔ Py.contains sep s = false.
Proof.
  intros Hsep. unfold Py.split. split.
  - intros Hn. destruct (Py.contains sep s) eqn:Hc; [|done].
    destruct (split_go_present sep "" s Hsep Hc) as (a & b & rest & Heq).
    by rewrite Heq in Hn.
  - intros Hc. by rewrite split_go_absent.
Qed.

Lemma contains_prefix (sep t : string) :
  Py.contains sep t = false → String.prefix sep t = false.
Proof. destruct t; cbn [Py.contains]; intros Hc; by apply orb_false_iff in Hc as [? ?]. Qed.

Lemma contains_app_r (sep a t : string) :
  Py.contains sep (a +:+ t) = false → Py.contains sep t = false.
Proof.
  induction a as [|c a IH]; [done|].
  rewrite PyFacts.app_cons. cbn [Py.contains].
  intros Hc. apply orb_false_iff in Hc as [_ Hc]. by apply IH.
Qed.

Lemma take_chars_app (n : nat) (s t : string) :
  (n ≤ String.length s)%nat → Py.take_chars n (s +:+ t) = Py.take_chars n s.
Proof.
  revert s. induction n as [|n IH]; intros [|c s] Hn; cbn in *; try done; try lia.
  rewrite PyFacts.app_cons. cbn. rewrite IH; [done | lia].
Qed.

Lemma prefix_take (s y : string) (n : nat) :
  String.prefix s y = true → (String.length s ≤ n)%nat →
  String.prefix s (Py.take_chars n y) = true.
Proof.
  revert y n. induction s as [|c s IH]; intros y n Hp Hn; [apply prefix_empty|].
  destruct y as [|d y]; [done|]. destruct n as [|n]; [cbn in Hn; lia|].
  rewrite prefix_cons in Hp. apply andb_true_iff in Hp as [Hcd Hp].
  cbn [Py.take_chars]. rewrite prefix_cons, Hcd. cbn.
  apply IH; [done | cbn in Hn; lia].
Qed.

Lemma prefix_app_take (s x y : string) (n : nat) :
  String.prefix s (x +:+ y) = true →
  (String.length s ≤ String.length x + n)%nat →
  String.prefix s (x +:+ Py.take_chars n y) = true.
Proof.
  revert x. induction s as [|c s IH]; intros x Hp Hn; [apply prefix_empty|].
  destruct x as [|d x].
  - by apply prefix_take.
  - rewrite PyFacts.app_cons in *. rewrite prefix_cons in *.
    apply andb_true_iff in Hp as [Hcd Hp]. rewrite Hcd. cbn.
    apply IH; [done | cbn in Hn; lia].
Qed.

Lemma prefix_contains (sep t : string) :
  String.prefix sep t = true → Py.contains sep t = true.
Proof. intros Hp. destruct t; cbn [Py.contains]; by rewrite Hp. Qed.

Lemma rev_app_rev_app (a cur acc : string) :
  String.rev_app (String.rev_app a cur) acc = String.rev_app cur (a +:+ acc).
Proof.
  revert cur. induction a as [|x a IH]; intros cur; [done|].
  cbn [String.rev_app]. rewrite IH. by rewrite PyFacts.app_cons.
Qed.

Lemma split_go_skip (sep x b cur : string) :
  Py.split_go sep (String.length x) cur (x +:+ b) = Py.split_go sep 0 cur b.
Proof. induction x as [|c x IH]; [done|]. by rewrite PyFacts.app_cons. Qed.

Lemma split_go_before (sep a rest cur : string) :
  (∀ a1 a2, a = a1 +:+ a2 → a2 ≠ "" → String.prefix sep (a2 +:+ rest) = false) →
  Py.split_go sep 0 cur (a +:+ rest) = Py.split_go sep 0 (String.rev_app a cur) rest.
Proof.
  revert cur. induction a as [|c a IH]; intros cur Hno; [done|].
  rewrite PyFacts.app_cons. cbn [Py.split_go String.rev_app].
  rewrite <- PyFacts.app_cons, (Hno "" (String c a)) by done.
  apply IH. intros a1 a2 -> Ha2. by apply (Hno (String c a1) a2).
Qed.

(** The first occurrence of the separator ends the first part; the other
    parts are those of what follows it. *)
Lemma split_cons_first (sep a b : string) :
  sep ≠ "" →
  Py.contains sep (a +:+ Py.take_chars (String.length sep - 1) sep) = false →
  Py.split sep (a +:+ sep +:+ b) = a :: Py.split sep b.
Proof.
  intros Hsep Ha. unfold Py.split. rewrite split_go_before.
  - destruct sep as [|c sep']; [done|].
    rewrite PyFacts.app_cons. cbn [Py.split_go].
    rewrite <- PyFacts.app_cons, prefix_app_self.
    cbn [String.length]. rewrite Nat.sub_succ, Nat.sub_0_r, split_go_skip.
    unfold String.rev.
    rewrite rev_app_rev_app. cbn [String.rev_app]. by rewrite PyFacts.app_empty_r.
  - intros a1 a2 -> Ha2.
    destruct (String.prefix sep (a2 +:+ sep +:+ b)) eqn:Hp; [|done].
    exfalso. rewrite PyFacts.app_assoc in Ha. apply contains_app_r in Ha.
    apply (prefix_app_take _ _ _ (String.length sep - 1)) in Hp.
    + rewrite take_chars_app in Hp by lia.
      apply prefix_contains in Hp. congruence.
    + destruct a2; [done|]. cbn. lia.
Qed.

(** With no further occurrence, the rest is the second and last part. *)
Lemma split_at_first (sep a b : string) :
  sep ≠ "" →
  Py.contains sep (a +:+ Py.take_chars (String.length sep - 1) sep) = false →
  Py.contains sep b = false →
  Py.split sep (a +:+ sep +:+ b) = [a; b].
Proof.
  intros Hsep Ha Hb. rewrite split_cons_first by done.
  unfold Py.split. by rewrite (split_go_absent _ _ _ Hb).
Qed.

(** With a further occurrence, there are at least three parts. *)
Lemma split_twice (sep a b : string) :
  sep ≠ "" →
  Py.contains sep (a +:+ Py.take_chars (String.length sep - 1) sep) = false →
  Py.contains sep b = true →
  ∃ p q rest, Py.split sep (a +:+ sep +:+ b) = a :: p :: q :: rest.
Proof.
  intros Hsep Ha Hb. rewrite split_cons_first by done.
  destruct (split_go_present sep "" b Hsep Hb) as (p & q & rest & Heq).
  exists p, q, rest. unfold Py.split. by rewrite Heq.
Qed.

End SplitFacts.

(* ===================================================================== *)
(** * Facts: more of [parse_content] *)
(* ===================================================================== *)

Section ParserCoverage.
Context {pyfloat : Type} `{rt : Builtins pyfloat}.

Lemma decode_field_key (k k' x : string) (v : value) :
  _decode_field (k, x) = Return (k', v) → k' = k.
Proof.
  unfold _decode_field. cbn [fst snd].
  destruct (_field_decoders !! k) as [decoder|]; cbn [mbind result_bind].
  - destruct (decoder x); cbn; congruence.
  - congruence.
Qed.

(** Which fields make a decoder raise. *)
Lemma decode_field_raise_cases (k x : string) (e : exn) :
  _decode_field (k, x) = Raise e →
  (k = "duration" ∧ float (Py.remove_char "s" x) = None) ∨
  (k ∈ ["table"; "idle_age"; "importance"; "hard_age"; "priority";
        "n_bytes"; "n_packets"] ∧ int x = None).
Proof.
  unfold _decode_field. cbn [fst snd]. rewrite field_decoders_lookup.
  destruct (decide (k = "duration")) as [->|Hd].
  { rewrite PyFacts.replace_char_empty. unfold to_float.
    destruct (float _); cbn; [done|]. by left. }
  destruct (decide (k ∈ _)) as [Hi|Hi].
  { unfold to_int. destruct (int x); cbn; [done|]. by right. }
  destruct (decide (k = "in_port")) as [->|Hp]; [|done].
  unfold _decode_port. by destruct (int x).
Qed.

Lemma mapM_Return {A B} (f : A → result B) (l : list A) (items : list B) :
  mapM f l = Return items → Forall2 (λ a b, f a = Return b) l items.
Proof.
  revert items. induction l as [|x l IH]; intros items; cbn.
  { intros [= <-]. constructor. }
  destruct (f x) as [y|] eqn:Hx; cbn; [|done].
  destruct (mapM f l) as [k|]; cbn; [|done].
  intros [= <-]. constructor; [done | by apply IH].
Qed.

Lemma mapM_Raise {A B} (f : A → result B) (l : list A) (e : exn) :
  mapM f l = Raise e → ∃ x, x ∈ l ∧ f x = Raise e.
Proof.
  induction l as [|x l IH]; cbn; [done|].
  destruct (f x) as [y|e'] eqn:Hx; cbn.
  - destruct (mapM f l) as [k|e'']; cbn; [done|].
    intros [= <-]. destruct IH as (x' & Hin & Hx'); [done|].
    exists x'. split; [by right | done].
  - intros [= <-]. exists x. split; [by left | done].
Qed.

(** The decoded dictionary has the keys of the raw one, each value decoded
    under its own key. *)
Lemma decode_items_lookup (m : gmap string string) (m' : gmap string value) (k : string) :
  decode_items m = Return m' →
  match m !! k with
  | None => m' !! k = None
  | Some x => ∃ v, _decode_field (k, x) = Return (k, v) ∧ m' !! k = Some v
  end.
Proof.
  unfold decode_items.
  destruct (mapM _decode_field (map_to_list m)) as [items|] eqn:Hm; cbn; [|done].
  intros [= <-]. apply mapM_Return in Hm.
  assert (items.*1 = (map_to_list m).*1) as Hkeys.
  { clear k. induction Hm as [|[k x] [k' v] l l' Hd _ IH]; [done|].
    cbn. apply decode_field_key in Hd as ->. by rewrite IH. }
  assert (NoDup items.*1) as Hnd by (rewrite Hkeys; apply NoDup_fst_map_to_list).
  destruct (m !! k) as [x|] eqn:Hk.
  - apply elem_of_map_to_list in Hk.
    apply list_elem_of_lookup in Hk as [i Hi].
    destruct (Forall2_lookup_l _ _ _ _ _ Hm Hi) as ([k' v] & Hi' & Hd).
    pose proof (decode_field_key _ _ _ _ Hd) as ->.
    exists v. split; [done|].
    apply elem_of_list_to_map; [done|]. by eapply list_elem_of_lookup_2.
  - apply not_elem_of_list_to_map. rewrite Hkeys.
    intros Hin. apply list_elem_of_fmap in Hin as ([k' x] & -> & Hin).
    apply elem_of_map_to_list in Hin. cbn in Hk. congruence.
Qed.

Lemma decode_items_Raise (m : gmap string string) (e : exn) :
  decode_items m = Raise e →
  ∃ k x, m !! k = Some x ∧ _decode_field (k, x) = Raise e.
Proof.
  unfold decode_items.
  destruct (mapM _decode_field (map_to_list m)) as [items|e'] eqn:Hm; cbn; [done|].
  intros [= <-]. apply mapM_Raise in Hm as ([k x] & Hin & Hd).
  exists k, x. split; [by apply elem_of_map_to_list | done].
Qed.

(** One pass of the loop body over a line that is no header: the line is
    passed over, or its record is appended, or its coercion fails. *)
Lemma parse_line_cases (line : string) (bridges : list (gmap string value)) :
  _is_header line = false →
  match parse_line line bridges with
  | Return r =>
      (skipped line ∧ ¬ yields_flow line ∧ r = bridges) ∨
      (¬ skipped line ∧ yields_flow line ∧
       ∃ flow, r = bridges ++ [flow] ∧ flow_of_line line flow)
  | Raise (SkipException msg) => msg = "Invalid Content!" ∧ ¬ skipped line
  | Raise ValueError => bad_number line ∧ ¬ skipped line
  end.
Proof.
  intros Hh. unfold parse_line, skipped, yields_flow, flow_of_line, bad_number.
  rewrite Hh. cbn [negb orb andb].
  destruct (Py.split "actions=" line) as [|fields [|actions [|? ?]]] eqn:Hs;
    cbn [mbind result_bind]; try (split; [done | by intros []]).
  destruct (decide (split_kv_pairs (Py.split "," fields) "=" = ∅)) as [He|He].
  { left. rewrite bool_decide_eq_true_2, bool_decide_eq_false_2 by auto.
    split; [done|]. split; [by intros []|done]. }
  rewrite bool_decide_eq_false_2, bool_decide_eq_true_2 by done.
  destruct (decode_items _) as [flow|e] eqn:Hd; cbn [mbind result_bind].
  - right. split; [by intros []|]. split; [done|].
    eexists. split; [done|]. split; [done|].
    exists fields, actions. split; [done|]. split; [apply lookup_insert_eq|].
    intros k Hk. rewrite lookup_insert_ne by done.
    by apply decode_items_lookup.
  - pose proof (decode_items_raises _ _ Hd) as ->.
    apply decode_items_Raise in Hd as (k & x & Hk & Hx).
    apply decode_field_raise_cases in Hx.
    split; [|by intros []]. split; [done|]. by exists fields, actions, k, x.
Qed.

(** A line passed over leaves the loop where it was. *)
Lemma parse_lines_skipped (line : string) (rest : list string)
    (bridges : list (gmap string value)) :
  skipped line → parse_lines (line :: rest) bridges = parse_lines rest bridges.
Proof.
  intros Hs. cbn [parse_lines]. destruct (_is_header line) eqn:Hh; [done|].
  pose proof (parse_line_cases line bridges Hh) as Hl.
  destruct (parse_line line bridges) as [r|[msg|]]; cbn [mbind result_bind].
  - destruct Hl as [(_ & _ & ->)|(Hn & _)]; [done | by destruct Hn].
  - by destruct Hl as [_ []].
  - by destruct Hl as [_ []].
Qed.

Lemma parse_lines_filter_skipped (content : list string)
    (bridges : list (gmap string value)) :
  parse_lines (filter (λ line, ¬ skipped line) content) bridges
  = parse_lines content bridges.
Proof.
  revert bridges. induction content as [|line rest IH]; intros bridges; [done|].
  destruct (skipped line) eqn:Hs.
  - rewrite filter_cons_False by (rewrite Hs; auto).
    rewrite parse_lines_skipped by (by rewrite Hs). apply IH.
  - rewrite filter_cons_True by (rewrite Hs; auto).
    cbn [parse_lines]. destruct (_is_header line); [apply IH|].
    destruct (parse_line line bridges); cbn [mbind result_bind]; [apply IH|done].
Qed.

(** The records of a normal end of the loop, line by line and in order. *)
Lemma parse_lines_flows (content : list string) (bridges : list (gmap string value)) :
  match parse_lines content bridges with
  | Return r =>
      ∃ new, r = bridges ++ new ∧
             Forall2 flow_of_line (filter (λ line, yields_flow line) content) new
  | Raise (SkipException msg) => msg = "Invalid Content!"
  | Raise ValueError => Exists bad_number content
  end.
Proof.
  revert bridges. induction content as [|line rest IH]; intros bridges;
    cbn [parse_lines].
  { exists []. by rewrite app_nil_r. }
  destruct (_is_header line) eqn:Hh.
  { assert (¬ yields_flow line) as Hy by (unfold yields_flow; rewrite Hh; cbn; auto).
    rewrite filter_cons_False by exact Hy. specialize (IH bridges).
    destruct (parse_lines rest bridges) as [r|[msg|]]; [done..|by right]. }
  pose proof (parse_line_cases line bridges Hh) as Hl.
  destruct (parse_line line bridges) as [r|[msg|]]; cbn [mbind result_bind].
  - specialize (IH r).
    destruct (parse_lines rest r) as [r'|[msg|]]; [|done|by right].
    destruct IH as (new & -> & Hnew).
    destruct Hl as [(_ & Hy & ->)|(_ & Hy & flow & -> & Hflow)].
    + rewrite filter_cons_False by exact Hy. eauto.
    + rewrite filter_cons_True by exact Hy. exists (flow :: new).
      split; [by rewrite <- app_assoc | by constructor].
  - by destruct Hl.
  - left. by destruct Hl.
Qed.

(** The loop does not look at the records it already has. *)
Lemma parse_lines_acc (content : list string) (bridges : list (gmap string value)) :
  parse_lines content bridges
  = new ← parse_lines content []; Return (bridges ++ new).
Proof.
  revert bridges. induction content as [|line rest IH]; intros bridges;
    cbn [parse_lines].
  { cbn. by rewrite app_nil_r. }
  destruct (_is_header line); [apply IH|].
  unfold parse_line.
  destruct (Py.split "actions=" line) as [|fields [|actions [|? ?]]]; try done.
  destruct (decide (split_kv_pairs (Py.split "," fields) "=" = ∅)); cbn [mbind result_bind].
  { apply IH. }
  destruct (decode_items _) as [flow|e]; cbn [mbind result_bind]; [|done].
  rewrite (IH (bridges ++ _)), (IH ([] ++ _)).
  destruct (parse_lines rest []); cbn; [|done]. by rewrite <- app_assoc.
Qed.

Lemma parse_lines_app (c1 c2 : list string) (bridges : list (gmap string value)) :
  parse_lines (c1 ++ c2) bridges
  = bridges' ← parse_lines c1 bridges; parse_lines c2 bridges'.
Proof.
  revert bridges. induction c1 as [|line rest IH]; intros bridges; [done|].
  cbn [app parse_lines]. destruct (_is_header line); [apply IH|].
  destruct (parse_line line bridges); cbn [mbind result_bind]; [apply IH|done].
Qed.

(** What a normal return of [parse_content] says about its run. *)
Lemma parse_content_Return (file_path : option string) (content : list string)
    (ovs : OVSofctlDumpFlows) :
  parse_content file_path content = Return ovs ↔
  content ≠ [] ∧
  extract_bridge_name file_path = Some (bridge_name ovs) ∧
  parse_lines content [] = Return (flow_dumps ovs) ∧
  flow_dumps ovs ≠ [].
Proof.
  unfold parse_content. destruct content as [|line rest].
  { split; [done | by intros [? _]]. }
  destruct (extract_bridge_name file_path) as [name|].
  2:{ split; [done | by intros (_ & ? & _)]. }
  destruct (parse_lines (line :: rest) []) as [[|flow flows]|e];
    cbn [mbind result_bind].
  - split; [done|]. by intros (_ & _ & [= <-] & ?).
  - destruct ovs as [name' flows']. cbn. split.
    + intros [= <- <-]. done.
    + intros (_ & [= <-] & [= <-] & _). done.
  - split; [done | by intros (_ & _ & ? & _)].
Qed.

(** X1. Every exception [parse_content] leaves with is one of four, each
    with its own cause: an empty content, an unusable path, a content the
    loop rejects or finds no record in, or a failed coercion. *)
Theorem parse_content_raises (file_path : option string) (content : list string)
    (e : exn) :
  parse_content file_path content = Raise e →
  (content = [] ∧ e = SkipException "Empty Content!") ∨
  (content ≠ [] ∧ extract_bridge_name file_path = None ∧
   e = SkipException "Invalid Path!") ∨
  (content ≠ [] ∧ is_Some (extract_bridge_name file_path) ∧
   (e = SkipException "Invalid Content!" ∨ e = ValueError)).
Proof.
  unfold parse_content. destruct content as [|line rest].
  { intros [= <-]. by left. }
  destruct (extract_bridge_name file_path) as [name|].
  2:{ intros [= <-]. right; left. done. }
  pose proof (parse_lines_flows (line :: rest) []) as Hloop.
  destruct (parse_lines (line :: rest) []) as [[|flow flows]|[msg|]];
    cbn [mbind result_bind]; intros [= <-]; right; right;
    (split; [done|]); (split; [by eexists|]); subst; auto.
Qed.

(** X2. [parse_content] raises [SkipException("Invalid Path!")] exactly when
    the content is not empty and the file path is absent or does not contain
    [ovs-ofctl_dump-flows_]. *)
Theorem parse_content_invalid_path_iff (file_path : option string)
    (content : list string) :
  parse_content file_path content = Raise (SkipException "Invalid Path!") ↔
  content ≠ [] ∧
  match file_path with
  | None => True
  | Some path => Py.contains PATH_MARKER path = false
  end.
Proof.
  assert (extract_bridge_name file_path = None ↔
          match file_path with
          | None => True
          | Some path => Py.contains PATH_MARKER path = false
          end) as Hpath.
  { destruct file_path as [path|]; [|done]. by apply SplitFacts.split_second_None. }
  rewrite <- Hpath. split.
  - unfold parse_content. destruct content as [|line rest]; [done|].
    destruct (extract_bridge_name file_path) as [name|]; [|done].
    pose proof (parse_lines_flows (line :: rest) []) as Hloop.
    destruct (parse_lines (line :: rest) []) as [[|flow flows]|[msg|]];
      cbn [mbind result_bind]; try done.
    subst msg. done.
  - intros [Hc Hn]. unfold parse_content. rewrite Hn. by destruct content.
Qed.

(** X3. When the marker first occurs right after [dir] and does not occur
    in [name], a parse under the path [dir ++ marker ++ name] that returns
    has [name] as its bridge name. *)
Theorem bridge_name_from_path (dir name : string) (content : list string)
    (ovs : OVSofctlDumpFlows) :
  Py.contains PATH_MARKER (dir +:+ "ovs-ofctl_dump-flows") = false →
  Py.contains PATH_MARKER name = false →
  parse_content (Some (dir +:+ PATH_MARKER +:+ name)) content = Return ovs →
  bridge_name ovs = name.
Proof.
  intros Hdir Hname Hret. apply parse_content_Return in Hret as (_ & Hb & _).
  unfold extract_bridge_name in Hb. cbn [mbind option_bind] in Hb.
  rewrite SplitFacts.split_at_first in Hb by done. by injection Hb.
Qed.

(** X4. Headers and lines without fields do not matter: dropping them from
    the content changes nothing, as long as a line is left. *)
Theorem parse_content_skipped_lines (file_path : option string)
    (content : list string) :
  filter (λ line, ¬ skipped line) content ≠ [] →
  parse_content file_path (filter (λ line, ¬ skipped line) content)
  = parse_content file_path content.
Proof.
  intros Hne. unfold parse_content. rewrite parse_lines_filter_skipped.
  destruct (filter _ content) eqn:Hf; [done|]. by destruct content.
Qed.

(** X5. Two dumps that parse under a path parse together under it, and the
    flows of the whole are the flows of the first followed by those of the
    second. *)
Theorem parse_content_app (file_path : option string) (c1 c2 : list string)
    (o1 o2 : OVSofctlDumpFlows) :
  parse_content file_path c1 = Return o1 →
  parse_content file_path c2 = Return o2 →
  parse_content file_path (c1 ++ c2)
  = Return {| bridge_name := bridge_name o1;
              flow_dumps := flow_dumps o1 ++ flow_dumps o2 |}.
Proof.
  intros (Hc1 & Hb1 & Hl1 & Hf1)%parse_content_Return
         (Hc2 & Hb2 & Hl2 & Hf2)%parse_content_Return.
  apply parse_content_Return. cbn [bridge_name flow_dumps].
  split; [by destruct c1|]. split; [done|]. split.
  - rewrite parse_lines_app, Hl1. cbn [mbind result_bind].
    rewrite parse_lines_acc, Hl2. done.
  - by destruct (flow_dumps o1).
Qed.

(** X6. The flows of a parse that returns are, in order, the records of the
    lines that yield one: under [actions] the text after the delimiter, and
    under every other key the decoded value of that field of the line. *)
Theorem parse_content_flows (file_path : option string) (content : list string)
    (ovs : OVSofctlDumpFlows) :
  parse_content file_path content = Return ovs →
  Forall2 flow_of_line (filter (λ line, yields_flow line) content)
          (flow_dumps ovs).
Proof.
  intros (_ & _ & Hl & _)%parse_content_Return.
  pose proof (parse_lines_flows content []) as Hloop. rewrite Hl in Hloop.
  by destruct Hloop as (new & -> & Hnew).
Qed.

(** X7. [ValueError] leaves [parse_content] only when some line carries a
    [duration] that is no float once its [s] are removed, or a counter that
    is no int; a port never causes it. *)
Theorem parse_content_value_error_cause (file_path : option string)
    (content : list string) :
  parse_content file_path content = Raise ValueError →
  Exists bad_number content.
Proof.
  unfold parse_content. destruct content as [|line rest]; [done|].
  destruct (extract_bridge_name file_path); [|done].
  pose proof (parse_lines_flows (line :: rest) []) as Hloop.
  by destruct (parse_lines (line :: rest) []) as [[|flow flows]|[msg|]].
Qed.

(** X8. Under a usable path, a content whose first line that is not passed
    over lacks [actions=] is rejected with
    [SkipException("Invalid Content!")], whatever follows it. *)
Theorem parse_content_missing_delimiter (file_path : option string)
    (before : list string) (line : string) (rest : list string) :
  is_Some (extract_bridge_name file_path) →
  Forall (λ l, skipped l) before →
  _is_header line = false →
  Py.contains "actions=" line = false →
  parse_content file_path (before ++ line :: rest)
  = Raise (SkipException "Invalid Content!").
Proof.
  intros [name Hn] Hbefore Hh Hc. unfold parse_content. rewrite Hn.
  assert (parse_lines (before ++ line :: rest) []
          = Raise (SkipException "Invalid Content!")) as ->.
  { rewrite parse_lines_app.
    assert (parse_lines before [] = Return []) as ->.
    { induction Hbefore as [|l ls Hl _ IH]; [done|].
      by rewrite parse_lines_skipped. }
    cbn [mbind result_bind parse_lines]. rewrite Hh. unfold parse_line.
    unfold Py.split. by rewrite SplitFacts.split_go_absent. }
  by destruct before.
Qed.

(** X9. Under a usable path, a line in which [actions=] occurs again after
    its first occurrence is rejected with [SkipException("Invalid Content!")],
    when the lines before it are passed over. *)
Theorem parse_content_repeated_delimiter (file_path : option string)
    (before : list string) (fields after : string) (rest : list string) :
  is_Some (extract_bridge_name file_path) →
  Forall (λ l, skipped l) before →
  _is_header (fields +:+ "actions=" +:+ after) = false →
  Py.contains "actions=" (fields +:+ "actions") = false →
  Py.contains "actions=" after = true →
  parse_content file_path (before ++ (fields +:+ "actions=" +:+ after) :: rest)
  = Raise (SkipException "Invalid Content!").
Proof.
  intros [name Hn] Hbefore Hh Hf Ha. unfold parse_content. rewrite Hn.
  assert (parse_lines (before ++ (fields +:+ "actions=" +:+ after) :: rest) []
          = Raise (SkipException "Invalid Content!")) as ->.
  { rewrite parse_lines_app.
    assert (parse_lines before [] = Return []) as ->.
    { induction Hbefore as [|l ls Hl _ IH]; [done|].
      by rewrite parse_lines_skipped. }
    cbn [mbind result_bind parse_lines]. rewrite Hh. unfold parse_line.
    destruct (SplitFacts.split_twice "actions=" fields after)
      as (p & q & more & ->); done. }
  by destruct before.
Qed.

Lemma mapM_Raise_elem {A B} (f : A → result B) (l : list A) (x : A) (e : exn) :
  x ∈ l → f x = Raise e → ∃ e', mapM f l = Raise e'.
Proof.
  intros Hin Hx. induction Hin as [x l|x y l Hin IH]; cbn.
  - rewrite Hx. by eexists.
  - destruct (f y); cbn; [|by eexists].
    destruct (IH Hx) as [e' ->]. by eexists.
Qed.

(** X10. A failed coercion is not turned into a [SkipException]: under a
    usable path, when the lines before it are passed over, a line with a
    [duration] that is no float or a counter that is no int makes
    [parse_content] raise [ValueError], whatever lines follow. *)
Theorem parse_content_bad_number (file_path : option string)
    (before : list string) (line : string) (rest : list string) :
  is_Some (extract_bridge_name file_path) →
  Forall (λ l, skipped l) before →
  bad_number line →
  parse_content file_path (before ++ line :: rest) = Raise ValueError.
Proof.
  intros [name Hn] Hbefore (Hh & fields & actions & k & x & Hs & Hk & Hbad).
  unfold parse_content. rewrite Hn.
  assert (parse_lines (before ++ line :: rest) [] = Raise ValueError) as ->.
  { rewrite parse_lines_app.
    assert (parse_lines before [] = Return []) as ->.
    { induction Hbefore as [|l ls Hl _ IH]; [done|].
      by rewrite parse_lines_skipped. }
    cbn [mbind result_bind parse_lines]. rewrite Hh. unfold parse_line.
    rewrite Hs.
    destruct (decide (split_kv_pairs (Py.split "," fields) "=" = ∅)) as [He|_].
    { by rewrite He in Hk. }
    assert (∃ e, _decode_field (k, x) = Raise e) as [e Hx].
    { unfold _decode_field. cbn [fst snd]. rewrite field_decoders_lookup.
      destruct Hbad as [[-> Hf]|[Hi Hf]].
      - rewrite decide_True by done. cbv beta iota.
        rewrite PyFacts.replace_char_empty. unfold to_float.
        rewrite Hf. by eexists.
      - destruct (decide (k = "duration")) as [->|_].
        { exfalso. revert Hi. rewrite !elem_of_cons, elem_of_nil.
          intros [?|[?|[?|[?|[?|[?|[?|[]]]]]]]]; discriminate. }
        rewrite decide_True by done. unfold to_int. rewrite Hf. by eexists. }
    apply elem_of_map_to_list in Hk.
    destruct (mapM_Raise_elem _ _ _ _ Hk Hx) as [e' Hm].
    assert (decode_items (split_kv_pairs (Py.split "," fields) "=") = Raise e')
      as Hd by (unfold decode_items; by rewrite Hm).
    pose proof (decode_items_raises _ _ Hd) as ->. by rewrite Hd. }
  by destruct before.
Qed.

End ParserCoverage.

(** ** Runs of the parser for the facts above, under the reference builtins *)

Section ParserRuns.
#[local] Existing Instance Ref.builtins.

(** X1, witness: the sample under a path without the marker. *)
Lemma parse_content_raises_witness :
  parse_content (Some Fixtures.flow_path_unmarked) Fixtures.flow_dump
    = Raise (SkipException "Invalid Path!")
  ∧ ((Fixtures.flow_dump = [] ∧
      SkipException "Invalid Path!" = SkipException "Empty Content!") ∨
     (Fixtures.flow_dump ≠ [] ∧
      extract_bridge_name (Some Fixtures.flow_path_unmarked) = None ∧
      SkipException "Invalid Path!" = SkipException "Invalid Path!") ∨
     (Fixtures.flow_dump ≠ [] ∧
      is_Some (extract_bridge_name (Some Fixtures.flow_path_unmarked)) ∧
      (SkipException "Invalid Path!" = SkipException "Invalid Content!" ∨
       SkipException "Invalid Path!" = ValueError))).
Proof.
  assert (parse_content (Some Fixtures.flow_path_unmarked) Fixtures.flow_dump
          = Raise (SkipException "Invalid Path!")) as Hrun
    by (vm_compute; reflexivity).
  exact (conj Hrun (parse_content_raises _ _ _ Hrun)).
Defined.

(** X3, witness: the sample under [sos_commands/openvswitch/], bridge [br0]. *)
Lemma bridge_name_from_path_witness :
  parse_content (Some ("sos_commands/openvswitch/" +:+ PATH_MARKER +:+ "br0"))
    Fixtures.flow_dump
    = Return (Fixtures.returned
                (parse_content (Some Fixtures.flow_path) Fixtures.flow_dump))
  ∧ bridge_name (Fixtures.returned
                   (parse_content (Some Fixtures.flow_path) Fixtures.flow_dump))
    = "br0".
Proof.
  assert (parse_content (Some ("sos_commands/openvswitch/" +:+ PATH_MARKER +:+ "br0"))
            Fixtures.flow_dump
          = Return (Fixtures.returned
                      (parse_content (Some Fixtures.flow_path) Fixtures.flow_dump)))
    as Hrun by (vm_compute; reflexivity).
  split; [exact Hrun|].
  apply (bridge_name_from_path "sos_commands/openvswitch/" "br0"
           Fixtures.flow_dump _); [vm_compute; reflexivity..|exact Hrun].
Defined.

(** X4, witness: the sample with its header and a line without fields. *)
Lemma parse_content_skipped_lines_witness :
  filter (λ line, ¬ skipped line) Fixtures.flow_dump_raw ≠ []
  ∧ parse_content (Some Fixtures.flow_path)
      (filter (λ line, ¬ skipped line) Fixtures.flow_dump_raw)
    = parse_content (Some Fixtures.flow_path) Fixtures.flow_dump_raw.
Proof.
  assert (filter (λ line, ¬ skipped line) Fixtures.flow_dump_raw ≠ []) as Hne
    by (vm_compute; discriminate).
  exact (conj Hne (parse_content_skipped_lines _ _ Hne)).
Defined.

(** X5, witness: the two lines of the sample, one after the other. *)
Lemma parse_content_app_witness :
  parse_content (Some Fixtures.flow_path) ([Fixtures.flow_line_1] ++ [Fixtures.flow_line_2])
  = Return
      {| bridge_name :=
           bridge_name (Fixtures.returned
             (parse_content (Some Fixtures.flow_path) [Fixtures.flow_line_1]));
         flow_dumps :=
           flow_dumps (Fixtures.returned
             (parse_content (Some Fixtures.flow_path) [Fixtures.flow_line_1]))
           ++ flow_dumps (Fixtures.returned
             (parse_content (Some Fixtures.flow_path) [Fixtures.flow_line_2])) |}.
Proof.
  apply parse_content_app; vm_compute; reflexivity.
Defined.

(** X6, witness: the sample. *)
Lemma parse_content_flows_witness :
  Forall2 flow_of_line
    (filter (λ line, yields_flow line) Fixtures.flow_dump)
    (flow_dumps (Fixtures.returned
       (parse_content (Some Fixtures.flow_path) Fixtures.flow_dump))).
Proof.
  apply (parse_content_flows (Some Fixtures.flow_path)).
  vm_compute. reflexivity.
Defined.

(** X7, witness: a table that is no number. *)
Lemma parse_content_value_error_cause_witness :
  parse_content (Some Fixtures.flow_path) [Fixtures.flow_line_bad_table]
    = Raise ValueError
  ∧ Exists bad_number [Fixtures.flow_line_bad_table].
Proof.
  assert (parse_content (Some Fixtures.flow_path) [Fixtures.flow_line_bad_table]
          = Raise ValueError) as Hrun by (vm_compute; reflexivity).
  exact (conj Hrun (parse_content_value_error_cause _ _ Hrun)).
Defined.

(** X8, witness: a header, then a line cut before its actions, then the
    sample. *)
Lemma parse_content_missing_delimiter_witness :
  parse_content (Some Fixtures.flow_path)
    ([Fixtures.flow_header] ++ Fixtures.flow_line_cut :: Fixtures.flow_dump)
  = Raise (SkipException "Invalid Content!").
Proof.
  apply parse_content_missing_delimiter.
  - exists "br0". vm_compute. reflexivity.
  - constructor; [|constructor]. apply Is_true_true. vm_compute. reflexivity.
  - vm_compute. reflexivity.
  - vm_compute. reflexivity.
Defined.

(** X9, witness: an action text that itself holds [actions=]. *)
Lemma parse_content_repeated_delimiter_witness :
  parse_content (Some Fixtures.flow_path)
    ([Fixtures.flow_header]
     ++ ("table=0 " +:+ "actions=" +:+ "learn(actions=drop)") :: Fixtures.flow_dump)
  = Raise (SkipException "Invalid Content!").
Proof.
  apply parse_content_repeated_delimiter.
  - exists "br0". vm_compute. reflexivity.
  - constructor; [|constructor]. apply Is_true_true. vm_compute. reflexivity.
  - vm_compute. reflexivity.
  - vm_compute. reflexivity.
  - vm_compute. reflexivity.
Defined.

(** X10, witness: a header, then a line whose table is no number. *)
Lemma parse_content_bad_number_witness :
  parse_content (Some Fixtures.flow_path)
    ([Fixtures.flow_header] ++ Fixtures.flow_line_bad_table :: Fixtures.flow_dump)
  = Raise ValueError.
Proof.
  apply parse_content_bad_number.
  - exists "br0". vm_compute. reflexivity.
  - constructor; [|constructor]. apply Is_true_true. vm_compute. reflexivity.
  - split; [vm_compute; reflexivity|].
    exists "table=main ", "drop", "table", "main".
    split; [vm_compute; reflexivity|]. split; [vm_compute; reflexivity|].
    right. split; [|vm_compute; reflexivity].
    apply list_elem_of_here.
Defined.

End ParserRuns.
